(** * The OpenGL vertex manager of Dolphin: streaming and draw submission

    A shallow embedding of [Source/Core/VideoBackends/OGL/VertexManager.cpp]:
    [CreateDeviceObjects], [PrepareDrawBuffers], [ResetBuffer], [Draw] and
    [vFlush].  The file-level statics and the globals the functions read
    become fields of explicit records; every call that leaves the file
    (OpenGL, the stream buffers, the shader cache, the renderer, the index
    generator) is appended to a trace together with the pipeline state in
    effect when it was issued. *)

From Stdlib Require Import ZArith List Bool Lia.
Import ListNotations.
Local Open Scope Z_scope.

(** ** Machine integers *)

(** [u32] arithmetic wraps modulo 2^32. *)
Definition u32_modulus : Z := 2 ^ 32.

Definition u32 (z : Z) : Z := z mod u32_modulus.

Definition u32_mul (a b : Z) : Z := u32 (a * b).

(** [sizeof(u16)]. *)
Definition sizeof_u16 : Z := 2.

(** The explicit cast [(GLint)x]: a signed 32-bit integer. *)
Definition to_GLint (z : Z) : Z := (z + 2 ^ 31) mod u32_modulus - 2 ^ 31.

(** The conversion of a [u32] argument to a [GLsizei] parameter, a signed
    32-bit integer: values from 2^31 on come out negative. *)
Definition to_GLsizei (z : Z) : Z := (z + 2 ^ 31) mod u32_modulus - 2 ^ 31.

(** ** Enumerations and OpenGL constants *)

(** The primitive classes of [current_primitive_type]. *)
Inductive PrimitiveType : Type :=
| PRIMITIVE_POINTS
| PRIMITIVE_LINES
| PRIMITIVE_TRIANGLES.

(** The shader variants handed to [ProgramShaderCache::SetShader]. *)
Inductive DSTALPHA_MODE : Type :=
| DSTALPHA_NONE
| DSTALPHA_ALPHA_PASS
| DSTALPHA_DUAL_SOURCE_BLEND.

(** The two buffer targets the stream buffers are created for. *)
Inductive BufferTarget : Type :=
| GL_ARRAY_BUFFER
| GL_ELEMENT_ARRAY_BUFFER.

Definition GL_POINTS : Z := 0.
Definition GL_LINES : Z := 1.
Definition GL_TRIANGLES : Z := 4.
Definition GL_TRIANGLE_STRIP : Z := 5.
Definition GL_UNSIGNED_SHORT : Z := 5123.
Definition GL_BLEND : Z := 3042.

(** This are the initially requested size for the buffers expressed in bytes *)
Definition MAX_IBUFFER_SIZE : Z := 2 * 1024 * 1024.
Definition MAX_VBUFFER_SIZE : Z := 32 * 1024 * 1024.

(** ** Results of fallible operations *)

Inductive Error : Type :=
| OutOfSpace      (* a mapping request larger than the whole buffer *)
| DivideByZero.   (* integer division by a zero stride *)

Inductive Result (A : Type) : Type :=
| Ok (a : A)
| Fatal (e : Error).

Arguments Ok {A} a.
Arguments Fatal {A} e.

(** ** The pipeline state the claims observe *)

(** The four write-enable flags of [glColorMask]: red, green, blue, alpha. *)
Definition ColorMask : Type := (bool * bool * bool * bool)%type.

Record GLState : Type := mkGLState {
  gl_blend : bool;                          (* GL_BLEND enabled *)
  gl_color_mask : ColorMask;
  gl_program : option (DSTALPHA_MODE * Z);  (* variant and component mask *)
  gl_vertex_array : Z
}.

(** Every call that leaves the translation unit. *)
Inductive Call : Type :=
| glBindVertexArray (array : Z)
| StreamBuffer_Map (target : BufferTarget) (size stride : Z)
| StreamBuffer_Unmap (target : BufferTarget) (used_size : Z)
| IndexGenerator_Start (destination : Z)
| ProgramShaderCache_SetShader (mode : DSTALPHA_MODE) (components : Z)
| ProgramShaderCache_UploadConstants
| SetupVertexPointers
| glColorMask (r g b a : bool)
| glDisable (cap : Z)
| glEnable (cap : Z)
| glDrawRangeElementsBaseVertex
    (mode start end_ count type indices basevertex : Z)
| glDrawRangeElements (mode start end_ count type indices : Z)
| Renderer_SetColorMask
| ClearEFBCache.

(** A trace entry: the pipeline state in effect when the call was issued,
    and the call. *)
Definition Event : Type := (GLState * Call)%type.

(** ** Globals the functions only read *)

Record Config : Type := mkConfig {
  bSupportsPrimitiveRestart : bool;   (* g_ActiveConfig.backend_info *)
  bSupportsDualSourceBlend : bool;    (* g_ActiveConfig.backend_info *)
  bSupportsGLBaseVertex : bool        (* g_ogl_config *)
}.

Record BlendMode : Type := mkBlendMode {
  blendenable : bool;
  subtract : bool
}.

(** The native vertex format [g_nativeVertexFmt] points to.  [vFlush]
    dereferences the pointer before anything else, so the format is
    present whenever [vFlush] runs. *)
Record GLVertexFormat : Type := mkGLVertexFormat {
  VAO : Z;
  GetVertexStride : Z;   (* u32 *)
  m_components : Z       (* u32 *)
}.

Record Env : Type := mkEnv {
  g_ActiveConfig : Config;
  bpmem_blendmode : BlendMode;
  g_nativeVertexFmt : GLVertexFormat;
  current_primitive_type : PrimitiveType;
  (** The mask [Renderer::SetColorMask] installs.  [Render.cpp] is not
      among the sources; the mask the renderer is configured with is
      taken as given. *)
  renderer_color_mask : ColorMask
}.

(** ** The index generator *)

(** Modelled from the spec: the Index Generator ([IndexGenerator.h] is not
    among the sources).  [Start] begins recording into a caller-supplied
    region; [GetIndexLen] is the number of indices emitted so far and
    [GetNumVerts] the number of vertices referenced, both reset at
    [Start].  Both counters are [u32] values. *)
Record IndexGenerator : Type := mkIndexGenerator {
  ig_destination : Z;
  GetIndexLen : Z;
  GetNumVerts : Z
}.

(** Modelled from the spec: [IndexGenerator::Start], which begins a fresh
    recording at the destination and resets both counters. *)
Definition Start (destination : Z) : IndexGenerator :=
  mkIndexGenerator destination 0 0.

(** ** The stream buffer interface *)

(** [StreamBuffer] is an abstract class to this file: [Create] builds a
    buffer of a given capacity for a target, [Map] reserves a region and
    returns a pointer to it with its byte offset in the buffer, [Unmap]
    commits the bytes actually written.  A request that cannot be served
    is fatal. *)
Class StreamBuffer (B : Type) : Type := {
  Create : BufferTarget -> Z -> B;
  Map : B -> Z -> Z -> Result (Z * Z * B);
  Unmap : B -> Z -> B
}.

(** Modelled from the spec: the Ring Stream Buffer ([StreamBuffer.h] and
    [StreamBuffer.cpp] are not among the sources).  A fixed capacity in
    bytes, a write cursor, and at most one open mapping (its base offset
    and reserved size).  [rb_Map] aligns the cursor to the stride, wraps
    to offset 0 when the request does not fit before the end of the
    buffer, and fails with [OutOfSpace] when the request exceeds the
    total capacity.  [rb_Unmap] commits the bytes written from the base of
    the mapping and advances the write cursor by them.  The fence that
    orders the producer after the device is not represented. *)
Record RingStreamBuffer : Type := mkRing {
  rb_target : BufferTarget;
  rb_capacity : Z;
  rb_cursor : Z;
  rb_mapping : option (Z * Z);
  rb_storage : Z       (* address of the first byte of the backing store *)
}.

(** Modelled from the spec: [StreamBuffer::Create], a buffer of a fixed
    capacity with its cursor at offset 0 and no open mapping.  The
    storage addresses are arbitrary and distinct. *)
Definition rb_Create (target : BufferTarget) (size : Z) : RingStreamBuffer :=
  mkRing target size 0 None
         (match target with
          | GL_ARRAY_BUFFER => 0x10000000
          | GL_ELEMENT_ARRAY_BUFFER => 0x20000000
          end).

(** Modelled from the spec: alignment of the cursor to the next multiple
    of the stride; no stride, no alignment. *)
Definition rb_Align (cursor stride : Z) : Z :=
  if stride <=? 0 then cursor
  else ((cursor + stride - 1) / stride) * stride.

(** Modelled from the spec: [StreamBuffer::Map], returning the writable
    pointer and the base offset of the mapping. *)
Definition rb_Map (b : RingStreamBuffer) (size stride : Z)
  : Result (Z * Z * RingStreamBuffer) :=
  if rb_capacity b <? size then Fatal OutOfSpace
  else
    let aligned := rb_Align (rb_cursor b) stride in
    let base := if rb_capacity b <? aligned + size then 0 else aligned in
    Ok (rb_storage b + base, base,
        mkRing (rb_target b) (rb_capacity b) base (Some (base, size))
               (rb_storage b)).

(** Modelled from the spec: [StreamBuffer::Unmap], committing
    [used_size] bytes and advancing the write cursor by them. *)
Definition rb_Unmap (b : RingStreamBuffer) (used_size : Z) : RingStreamBuffer :=
  mkRing (rb_target b) (rb_capacity b) (rb_cursor b + used_size) None
         (rb_storage b).

#[global] Instance RingStreamBuffer_StreamBuffer : StreamBuffer RingStreamBuffer :=
  {| Create := rb_Create; Map := rb_Map; Unmap := rb_Unmap |}.

(** ** The mutable state of the vertex manager *)

(** [stats.thisFrame], as far as this file touches it. *)
Record Statistics : Type := mkStatistics {
  bytesVertexStreamed : Z;
  bytesIndexStreamed : Z;
  numIndexedDrawCalls : Z
}.

(** [ADDSTAT] and [INCSTAT] are macros of [Statistics.h], which also
    declares the types of the counters, and [g_Config.iSaveTargetId] is
    declared in [VideoConfig.h]; neither header is among the sources.
    What [ADDSTAT(counter, n)] and [INCSTAT(counter)] make of a counter,
    and what [++] makes of the target id, is taken as given. *)
Class Counters : Type := {
  ADDSTAT : Z -> Z -> Z;
  INCSTAT : Z -> Z;
  post_increment : Z -> Z
}.

Record State (B : Type) : Type := mkState {
  s_vertexBuffer : B;
  s_indexBuffer : B;
  s_baseVertex : Z;            (* size_t *)
  s_index_offset : Z;          (* size_t *)
  s_pCurBufferPointer : Z;
  s_pBaseBufferPointer : Z;
  s_pEndBufferPointer : Z;
  m_last_vao : Z;
  index_generator : IndexGenerator;
  gl : GLState;
  stats : Statistics;
  iSaveTargetId : Z;
  trace : list Event
}.

Arguments mkState {B}.
Arguments s_vertexBuffer {B} _.
Arguments s_indexBuffer {B} _.
Arguments s_baseVertex {B} _.
Arguments s_index_offset {B} _.
Arguments s_pCurBufferPointer {B} _.
Arguments s_pBaseBufferPointer {B} _.
Arguments s_pEndBufferPointer {B} _.
Arguments m_last_vao {B} _.
Arguments index_generator {B} _.
Arguments gl {B} _.
Arguments stats {B} _.
Arguments iSaveTargetId {B} _.
Arguments trace {B} _.

(** Commands that cannot fail: a state monad over [State B]. *)
Definition Cmd (B A : Type) : Type := State B -> A * State B.

Definition ret {B A : Type} (a : A) : Cmd B A := fun st => (a, st).

Definition bind {B A A' : Type} (c : Cmd B A) (k : A -> Cmd B A') : Cmd B A' :=
  fun st => let (a, st') := c st in k a st'.

Definition exec {B A : Type} (c : Cmd B A) (st : State B) : State B :=
  snd (c st).

Definition when {B : Type} (b : bool) (c : Cmd B unit) : Cmd B unit :=
  if b then c else ret tt.

Declare Scope cmd_scope.
Delimit Scope cmd_scope with cmd.
Notation "c1 ;; c2" := (bind c1 (fun _ => c2))
  (at level 61, right associativity) : cmd_scope.

(** The calls issued between two states of one run. *)
Definition issued {B : Type} (before after : State B) : list Event :=
  skipn (length (trace before)) (trace after).

(** ** Reading a trace *)

Definition is_draw (c : Call) : bool :=
  match c with
  | glDrawRangeElementsBaseVertex _ _ _ _ _ _ _ => true
  | glDrawRangeElements _ _ _ _ _ _ => true
  | _ => false
  end.

Definition is_UploadConstants (c : Call) : bool :=
  match c with
  | ProgramShaderCache_UploadConstants => true
  | _ => false
  end.

Definition is_glColorMask (c : Call) : bool :=
  match c with
  | glColorMask _ _ _ _ => true
  | _ => false
  end.

Definition is_glEnable_blend (c : Call) : bool :=
  match c with
  | glEnable cap => cap =? GL_BLEND
  | _ => false
  end.

(** The draw calls of a trace, each with the pipeline state it ran in. *)
Definition draws (l : list Event) : list Event :=
  filter (fun e => is_draw (snd e)) l.

Definition count_calls (p : Call -> bool) (l : list Event) : nat :=
  length (filter (fun e => p (snd e)) l).

(** The shader variant bound in a pipeline state. *)
Definition bound_variant (g : GLState) : option DSTALPHA_MODE :=
  option_map fst (gl_program g).

(** What OpenGL does with an element of the index buffer: with a base
    vertex the element is offset by it before the vertex is fetched,
    without one the element is the vertex. *)
Definition resolve_vertex (c : Call) (index : Z) : option Z :=
  match c with
  | glDrawRangeElementsBaseVertex _ _ _ _ _ _ basevertex =>
      Some (index + basevertex)
  | glDrawRangeElements _ _ _ _ _ _ => Some index
  | _ => None
  end.

(** The topology, the vertex range, the index count and the index offset
    of a draw call. *)
Definition draw_range (c : Call) : option (Z * Z * Z * Z * Z * Z) :=
  match c with
  | glDrawRangeElementsBaseVertex mode start end_ count type indices _ =>
      Some (mode, start, end_, count, type, indices)
  | glDrawRangeElements mode start end_ count type indices =>
      Some (mode, start, end_, count, type, indices)
  | _ => None
  end.

(** The part of a trace that starts at its last draw call (empty when
    the trace has no draw call). *)
Fixpoint since_last_draw (l : list Event) : list Event :=
  match l with
  | [] => []
  | e :: l' =>
      match since_last_draw l' with
      | [] => if is_draw (snd e) then e :: l' else []
      | tail => tail
      end
  end.

(** The same environment on a platform with, or without, base-vertex
    draw calls. *)
Definition with_base_vertex_support (b : bool) (env : Env) : Env :=
  mkEnv (mkConfig (bSupportsPrimitiveRestart (g_ActiveConfig env))
                  (bSupportsDualSourceBlend (g_ActiveConfig env)) b)
        (bpmem_blendmode env) (g_nativeVertexFmt env)
        (current_primitive_type env) (renderer_color_mask env).

(** ** The functions of VertexManager.cpp *)

Section VertexManager.

Context {B : Type} {SB : StreamBuffer B} {CT : Counters}.

(** The batch capacities [MAXVBUFFERSIZE] (bytes of vertex data) and
    [MAXIBUFFERSIZE] (number of indices) come from the base class, whose
    header is not among the sources. *)
Variables MAXVBUFFERSIZE MAXIBUFFERSIZE : Z.

Variable env : Env.

Local Open Scope cmd_scope.

(** The effect of a call on the pipeline state.  The OpenGL calls act
    as OpenGL defines them.  [ProgramShaderCache::SetShader] and
    [Renderer::SetColorMask] are not among the sources: the first binds
    the variant it is handed, the second installs the colour mask the
    renderer is configured with. *)
Definition gl_effect (c : Call) (g : GLState) : GLState :=
  match c with
  | glBindVertexArray array =>
      mkGLState (gl_blend g) (gl_color_mask g) (gl_program g) array
  | ProgramShaderCache_SetShader mode components =>
      mkGLState (gl_blend g) (gl_color_mask g) (Some (mode, components))
                (gl_vertex_array g)
  | glColorMask r gr b a =>
      mkGLState (gl_blend g) (r, gr, b, a) (gl_program g) (gl_vertex_array g)
  | glDisable cap =>
      if cap =? GL_BLEND
      then mkGLState false (gl_color_mask g) (gl_program g) (gl_vertex_array g)
      else g
  | glEnable cap =>
      if cap =? GL_BLEND
      then mkGLState true (gl_color_mask g) (gl_program g) (gl_vertex_array g)
      else g
  | Renderer_SetColorMask =>
      mkGLState (gl_blend g) (renderer_color_mask env) (gl_program g)
                (gl_vertex_array g)
  | _ => g
  end.

(** Issue a call: log it with the pipeline state in effect, then apply
    its effect. *)
Definition call (c : Call) : Cmd B unit :=
  fun st =>
    (tt, mkState (s_vertexBuffer st) (s_indexBuffer st) (s_baseVertex st)
                 (s_index_offset st) (s_pCurBufferPointer st)
                 (s_pBaseBufferPointer st) (s_pEndBufferPointer st)
                 (m_last_vao st) (index_generator st)
                 (gl_effect c (gl st)) (stats st) (iSaveTargetId st)
                 (trace st ++ [(gl st, c)])).

Definition set_vertexBuffer (b : B) : Cmd B unit :=
  fun st =>
    (tt, mkState b (s_indexBuffer st) (s_baseVertex st)
                 (s_index_offset st) (s_pCurBufferPointer st)
                 (s_pBaseBufferPointer st) (s_pEndBufferPointer st)
                 (m_last_vao st) (index_generator st) (gl st) (stats st)
                 (iSaveTargetId st) (trace st)).

Definition set_indexBuffer (b : B) : Cmd B unit :=
  fun st =>
    (tt, mkState (s_vertexBuffer st) b (s_baseVertex st)
                 (s_index_offset st) (s_pCurBufferPointer st)
                 (s_pBaseBufferPointer st) (s_pEndBufferPointer st)
                 (m_last_vao st) (index_generator st) (gl st) (stats st)
                 (iSaveTargetId st) (trace st)).

Definition set_last_vao (v : Z) : Cmd B unit :=
  fun st =>
    (tt, mkState (s_vertexBuffer st) (s_indexBuffer st) (s_baseVertex st)
                 (s_index_offset st) (s_pCurBufferPointer st)
                 (s_pBaseBufferPointer st) (s_pEndBufferPointer st)
                 v (index_generator st) (gl st) (stats st)
                 (iSaveTargetId st) (trace st)).

Definition set_stats (s : Statistics) : Cmd B unit :=
  fun st =>
    (tt, mkState (s_vertexBuffer st) (s_indexBuffer st) (s_baseVertex st)
                 (s_index_offset st) (s_pCurBufferPointer st)
                 (s_pBaseBufferPointer st) (s_pEndBufferPointer st)
                 (m_last_vao st) (index_generator st) (gl st) s
                 (iSaveTargetId st) (trace st)).

Definition set_iSaveTargetId (n : Z) : Cmd B unit :=
  fun st =>
    (tt, mkState (s_vertexBuffer st) (s_indexBuffer st) (s_baseVertex st)
                 (s_index_offset st) (s_pCurBufferPointer st)
                 (s_pBaseBufferPointer st) (s_pEndBufferPointer st)
                 (m_last_vao st) (index_generator st) (gl st) (stats st)
                 n (trace st)).

(** [s_vertexBuffer->Unmap(n)] and [s_indexBuffer->Unmap(n)]. *)
Definition s_vertexBuffer_Unmap (used_size : Z) : Cmd B unit :=
  fun st =>
    (call (StreamBuffer_Unmap GL_ARRAY_BUFFER used_size) ;;
     set_vertexBuffer (Unmap (s_vertexBuffer st) used_size)) st.

Definition s_indexBuffer_Unmap (used_size : Z) : Cmd B unit :=
  fun st =>
    (call (StreamBuffer_Unmap GL_ELEMENT_ARRAY_BUFFER used_size) ;;
     set_indexBuffer (Unmap (s_indexBuffer st) used_size)) st.

(** [ADDSTAT] and [INCSTAT] on the counters of the current frame. *)
Definition ADDSTAT_bytesVertexStreamed (n : Z) : Cmd B unit :=
  fun st =>
    set_stats (mkStatistics (ADDSTAT (bytesVertexStreamed (stats st)) n)
                            (bytesIndexStreamed (stats st))
                            (numIndexedDrawCalls (stats st))) st.

Definition ADDSTAT_bytesIndexStreamed (n : Z) : Cmd B unit :=
  fun st =>
    set_stats (mkStatistics (bytesVertexStreamed (stats st))
                            (ADDSTAT (bytesIndexStreamed (stats st)) n)
                            (numIndexedDrawCalls (stats st))) st.

Definition INCSTAT_numIndexedDrawCalls : Cmd B unit :=
  fun st =>
    set_stats (mkStatistics (bytesVertexStreamed (stats st))
                            (bytesIndexStreamed (stats st))
                            (INCSTAT (numIndexedDrawCalls (stats st)))) st.

(** [VertexManager::CreateDeviceObjects], run on zero-initialised
    statics with the pipeline state [g]. *)
Definition CreateDeviceObjects (g : GLState) : State B :=
  mkState (Create GL_ARRAY_BUFFER MAX_VBUFFER_SIZE)
          (Create GL_ELEMENT_ARRAY_BUFFER MAX_IBUFFER_SIZE)
          0 0 0 0 0
          0                       (* m_last_vao = 0 *)
          (mkIndexGenerator 0 0 0)
          g (mkStatistics 0 0 0) 0 [].

(** [VertexManager::PrepareDrawBuffers]. *)
Definition PrepareDrawBuffers (stride : Z) : Cmd B unit :=
  fun st =>
    let vertex_data_size := u32_mul (GetNumVerts (index_generator st)) stride in
    let index_data_size := u32_mul (GetIndexLen (index_generator st)) sizeof_u16 in
    (s_vertexBuffer_Unmap vertex_data_size ;;
     s_indexBuffer_Unmap index_data_size ;;
     ADDSTAT_bytesVertexStreamed vertex_data_size ;;
     ADDSTAT_bytesIndexStreamed index_data_size) st.

(** [VertexManager::ResetBuffer].  With a stride of zero the division
    that computes the base vertex is undefined; the model yields no
    state for it, and nothing is claimed about that case. *)
Definition ResetBuffer (stride : Z) (st : State B) : Result (State B) :=
  match Map (s_vertexBuffer st) MAXVBUFFERSIZE stride with
  | Fatal e => Fatal e
  | Ok (first, second, vbuf) =>
      if stride =? 0 then Fatal DivideByZero
      else
        (** the index mapping passes no alignment stride *)
        match Map (s_indexBuffer st) (MAXIBUFFERSIZE * sizeof_u16) 0 with
        | Fatal e => Fatal e
        | Ok (ifirst, isecond, ibuf) =>
            Ok (mkState vbuf ibuf
                        (second / stride)            (* s_baseVertex *)
                        isecond                      (* s_index_offset *)
                        first                        (* s_pCurBufferPointer *)
                        first                        (* s_pBaseBufferPointer *)
                        (first + MAXVBUFFERSIZE)     (* s_pEndBufferPointer *)
                        (m_last_vao st)
                        (Start ifirst)
                        (gl st) (stats st) (iSaveTargetId st)
                        (trace st ++
                         [(gl st, StreamBuffer_Map GL_ARRAY_BUFFER
                                    MAXVBUFFERSIZE stride);
                          (gl st, StreamBuffer_Map GL_ELEMENT_ARRAY_BUFFER
                                    (MAXIBUFFERSIZE * sizeof_u16) 0);
                          (gl st, IndexGenerator_Start ifirst)]))
        end
  end.

(** [VertexManager::Draw].  The parameters of the two OpenGL calls are
    [(GLenum mode, GLuint start, GLuint end, GLsizei count, GLenum type,
    const void *indices[, GLint basevertex])]: the [u32] index count is
    converted to [GLsizei] on the way in. *)
Definition Draw (stride : Z) : Cmd B unit :=
  fun st =>
    let index_size := GetIndexLen (index_generator st) in
    let max_index := GetNumVerts (index_generator st) in
    let primitive_mode :=
      match current_primitive_type env with
      | PRIMITIVE_POINTS => GL_POINTS
      | PRIMITIVE_LINES => GL_LINES
      | PRIMITIVE_TRIANGLES =>
          if bSupportsPrimitiveRestart (g_ActiveConfig env)
          then GL_TRIANGLE_STRIP else GL_TRIANGLES
      end in
    ((if bSupportsGLBaseVertex (g_ActiveConfig env)
      then call (glDrawRangeElementsBaseVertex primitive_mode 0 max_index
                   (to_GLsizei index_size) GL_UNSIGNED_SHORT
                   (s_index_offset st) (to_GLint (s_baseVertex st)))
      else call (glDrawRangeElements primitive_mode 0 max_index
                   (to_GLsizei index_size) GL_UNSIGNED_SHORT
                   (s_index_offset st))) ;;
     INCSTAT_numIndexedDrawCalls) st.

(** [VertexManager::vFlush], as compiled without [_DEBUG] and
    [DEBUGFAST]: the shader and target dumps are not part of it. *)
Definition vFlush (useDstAlpha : bool) : Cmd B unit :=
  fun st =>
    let nativeVertexFmt := g_nativeVertexFmt env in
    let stride := GetVertexStride nativeVertexFmt in
    let components := m_components (g_nativeVertexFmt env) in
    (** Makes sure we can actually do Dual source blending *)
    let dualSourcePossible := bSupportsDualSourceBlend (g_ActiveConfig env) in
    (when (negb (m_last_vao st =? VAO nativeVertexFmt))
          (call (glBindVertexArray (VAO nativeVertexFmt)) ;;
           set_last_vao (VAO nativeVertexFmt)) ;;
     PrepareDrawBuffers stride ;;
     (** finally bind *)
     (if dualSourcePossible
      then
        if useDstAlpha
        then call (ProgramShaderCache_SetShader DSTALPHA_DUAL_SOURCE_BLEND
                     components)
        else call (ProgramShaderCache_SetShader DSTALPHA_NONE components)
      else call (ProgramShaderCache_SetShader DSTALPHA_NONE components)) ;;
     (** upload global constants *)
     call ProgramShaderCache_UploadConstants ;;
     (** setup the pointers *)
     call SetupVertexPointers ;;
     Draw stride ;;
     (** run through vertex groups again to set alpha *)
     when (useDstAlpha && negb dualSourcePossible)
          (call (ProgramShaderCache_SetShader DSTALPHA_ALPHA_PASS components) ;;
           (** only update alpha *)
           call (glColorMask false false false true) ;;
           call (glDisable GL_BLEND) ;;
           Draw stride ;;
           (** restore color mask *)
           call Renderer_SetColorMask ;;
           when (blendenable (bpmem_blendmode env)
                 || subtract (bpmem_blendmode env))
                (call (glEnable GL_BLEND))) ;;
     (fun st' => set_iSaveTargetId (post_increment (iSaveTargetId st')) st') ;;
     call ClearEFBCache) st.

End VertexManager.

(** ** Sample inputs *)

(** Sample batch capacities, sample formats and sample environments used
    to run the functions on concrete inputs. *)
(** Sample counters: 32-bit signed integers that wrap. *)
#[global] Instance sample_counters : Counters :=
  {| ADDSTAT := fun counter n => to_GLint (counter + n);
     INCSTAT := fun counter => to_GLint (counter + 1);
     post_increment := fun n => to_GLint (n + 1) |}.

Definition sample_MAXVBUFFERSIZE : Z := 0x1FFFF.
Definition sample_MAXIBUFFERSIZE : Z := 0xFFFF.

Definition sample_gl : GLState :=
  mkGLState true (true, true, true, true) None 0.

Definition sample_format : GLVertexFormat := mkGLVertexFormat 1 32 0.

(** No dual-source blending, base-vertex draws, no primitive restart;
    blending configured on. *)
Definition env_two_pass : Env :=
  mkEnv (mkConfig false false true) (mkBlendMode true false)
        sample_format PRIMITIVE_TRIANGLES (true, true, true, true).

(** Dual-source blending available. *)
Definition env_dual_source : Env :=
  mkEnv (mkConfig false true true) (mkBlendMode true false)
        sample_format PRIMITIVE_TRIANGLES (true, true, true, true).

(** The same platform as [env_two_pass] without base-vertex draws. *)
Definition env_no_base_vertex : Env :=
  mkEnv (mkConfig false false false) (mkBlendMode true false)
        sample_format PRIMITIVE_TRIANGLES (true, true, true, true).

(** The geometry producer and the index generator run between
    [ResetBuffer] and [vFlush]; their effect on this file's state is the
    pair of counters the index generator reports. *)
Definition with_emitted {B : Type} (verts indices : Z) (st : State B) : State B :=
  mkState (s_vertexBuffer st) (s_indexBuffer st) (s_baseVertex st)
          (s_index_offset st) (s_pCurBufferPointer st)
          (s_pBaseBufferPointer st) (s_pEndBufferPointer st)
          (m_last_vao st)
          (mkIndexGenerator (ig_destination (index_generator st)) indices verts)
          (gl st) (stats st) (iSaveTargetId st) (trace st).

Definition or_else {A : Type} (r : Result A) (d : A) : A :=
  match r with
  | Ok a => a
  | Fatal _ => d
  end.

Definition sample_created : State RingStreamBuffer :=
  CreateDeviceObjects sample_gl.

(** After the first [ResetBuffer(32)] of a session. *)
Definition sample_reset : State RingStreamBuffer :=
  or_else (ResetBuffer sample_MAXVBUFFERSIZE sample_MAXIBUFFERSIZE 32
                       sample_created)
          sample_created.

(** One triangle: three vertices, indices [0,1,2]. *)
Definition sample_triangle : State RingStreamBuffer :=
  with_emitted 3 3 sample_reset.

(** The second batch of a session: the first triangle has been flushed
    and the buffers mapped again. *)
Definition sample_second_batch : State RingStreamBuffer :=
  with_emitted 3 3
    (or_else (ResetBuffer sample_MAXVBUFFERSIZE sample_MAXIBUFFERSIZE 32
                (exec (vFlush env_two_pass false) sample_triangle))
             sample_created).

(** A platform without dual-source blending whose renderer is configured
    to write alpha only, with blending configured off. *)
Definition env_alpha_only : Env :=
  mkEnv (mkConfig false false true) (mkBlendMode false false)
        sample_format PRIMITIVE_TRIANGLES (false, false, false, true).

(** The second batch of a session on that platform: the first triangle
    has been flushed with destination alpha and the buffers mapped
    again. *)
Definition sample_alpha_only_second_batch : State RingStreamBuffer :=
  with_emitted 3 3
    (or_else (ResetBuffer sample_MAXVBUFFERSIZE sample_MAXIBUFFERSIZE 32
                (exec (vFlush env_alpha_only true) sample_triangle))
             sample_created).

(** A batch whose index generator reports 2^31 indices. *)
Definition sample_huge_index_count : State RingStreamBuffer :=
  with_emitted 3 2147483648 sample_reset.

(** ** More ways to read a trace and to vary the environment *)

Definition is_glBindVertexArray (c : Call) : bool :=
  match c with
  | glBindVertexArray _ => true
  | _ => false
  end.

Definition is_Unmap (c : Call) : bool :=
  match c with
  | StreamBuffer_Unmap _ _ => true
  | _ => false
  end.

Definition is_Map_or_Start (c : Call) : bool :=
  match c with
  | StreamBuffer_Map _ _ _ => true
  | IndexGenerator_Start _ => true
  | _ => false
  end.

Definition is_SetupVertexPointers (c : Call) : bool :=
  match c with
  | SetupVertexPointers => true
  | _ => false
  end.

(** The calls that write the colour mask or the blend switch. *)
Definition changes_mask_or_blend (c : Call) : bool :=
  match c with
  | glColorMask _ _ _ _ => true
  | glDisable _ => true
  | glEnable _ => true
  | Renderer_SetColorMask => true
  | _ => false
  end.

(** The calls of a trace that satisfy a test, in order. *)
Definition calls_where (p : Call -> bool) (l : list Event) : list Call :=
  filter p (map snd l).

(** The part of a trace that starts at its first draw call. *)
Fixpoint from_first_draw (l : list Event) : list Event :=
  match l with
  | [] => []
  | e :: l' => if is_draw (snd e) then e :: l' else from_first_draw l'
  end.

(** The same environment with another dual-source capability, another
    primitive-restart capability, or another blend mode. *)
Definition with_dual_source_blend (b : bool) (env : Env) : Env :=
  mkEnv (mkConfig (bSupportsPrimitiveRestart (g_ActiveConfig env)) b
                  (bSupportsGLBaseVertex (g_ActiveConfig env)))
        (bpmem_blendmode env) (g_nativeVertexFmt env)
        (current_primitive_type env) (renderer_color_mask env).

Definition with_primitive_restart (b : bool) (env : Env) : Env :=
  mkEnv (mkConfig b (bSupportsDualSourceBlend (g_ActiveConfig env))
                  (bSupportsGLBaseVertex (g_ActiveConfig env)))
        (bpmem_blendmode env) (g_nativeVertexFmt env)
        (current_primitive_type env) (renderer_color_mask env).

Definition with_blendmode (m : BlendMode) (env : Env) : Env :=
  mkEnv (g_ActiveConfig env) m (g_nativeVertexFmt env)
        (current_primitive_type env) (renderer_color_mask env).

(** A platform that draws points, with blending configured off. *)
Definition env_points : Env :=
  mkEnv (mkConfig true false true) (mkBlendMode false false)
        sample_format PRIMITIVE_POINTS (true, true, true, true).

(** ** The patch engine: [Source/Core/Core/PatchEngine.h] *)

Module PatchEngine.

Inductive PatchType : Type :=
| PATCH_8BIT
| PATCH_16BIT
| PATCH_32BIT.

Record PatchEntry : Type := mkPatchEntry {
  type : PatchType;
  address : Z;   (* u32 *)
  value : Z      (* u32 *)
}.

(** [GetPatchTypeCharLength]: [size] starts at 8 and the switch sets it
    per enumerator. *)
Definition GetPatchTypeCharLength (t : PatchType) : Z :=
  let size := 8 in
  match t with
  | PATCH_8BIT => 2
  | PATCH_16BIT => 4
  | PATCH_32BIT => 8
  end.

(** The width in bits each enumerator names. *)
Definition PatchTypeBits (t : PatchType) : Z :=
  match t with
  | PATCH_8BIT => 8
  | PATCH_16BIT => 16
  | PATCH_32BIT => 32
  end.

End PatchEngine.

(** ** Reasoning about runs *)

Lemma issued_app {B : Type} (st st' : State B) (l : list Event) :
  trace st' = trace st ++ l -> issued st st' = l.
Proof.
  unfold issued. intros ->.
  rewrite skipn_app, skipn_all, Nat.sub_diag. reflexivity.
Qed.

Lemma u32_mul_0_l (b : Z) : u32_mul 0 b = 0.
Proof. unfold u32_mul, u32. rewrite Z.mul_0_l. apply Z.mod_0_l. discriminate. Qed.

Lemma u32_mul_exact (a b : Z) :
  0 <= a * b < u32_modulus -> u32_mul a b = a * b.
Proof. intros H. unfold u32_mul, u32. apply Z.mod_small. exact H. Qed.

Lemma to_GLint_exact (z : Z) : - 2 ^ 31 <= z < 2 ^ 31 -> to_GLint z = z.
Proof.
  intros H. unfold to_GLint, u32_modulus.
  rewrite Z.mod_small; lia.
Qed.

Lemma to_GLsizei_exact (z : Z) : 0 <= z < 2 ^ 31 -> to_GLsizei z = z.
Proof.
  intros H. unfold to_GLsizei, u32_modulus.
  rewrite Z.mod_small; lia.
Qed.

(** Run the commands of this file on a state whose fields are known
    constructors or variables.  Only the functions of the model are
    unfolded; arithmetic and list append stay as written. *)
Ltac run_cmds :=
  lazy beta iota zeta delta
    [vFlush Draw PrepareDrawBuffers s_vertexBuffer_Unmap
     s_indexBuffer_Unmap ADDSTAT_bytesVertexStreamed
     ADDSTAT_bytesIndexStreamed INCSTAT_numIndexedDrawCalls set_vertexBuffer
     set_indexBuffer set_last_vao set_stats set_iSaveTargetId call when
     bind ret exec gl_effect fst snd negb andb orb
     with_base_vertex_support
     s_vertexBuffer s_indexBuffer s_baseVertex s_index_offset
     s_pCurBufferPointer s_pBaseBufferPointer s_pEndBufferPointer m_last_vao
     index_generator gl stats iSaveTargetId trace
     gl_blend gl_color_mask gl_program gl_vertex_array
     g_ActiveConfig bpmem_blendmode g_nativeVertexFmt current_primitive_type
     renderer_color_mask bSupportsPrimitiveRestart bSupportsDualSourceBlend
     bSupportsGLBaseVertex blendenable subtract VAO GetVertexStride
     m_components].

(** Normalise the trace of a run into [trace st ++ calls]. *)
Ltac run_trace :=
  run_cmds; rewrite ?Z.eqb_refl; run_cmds;
  repeat rewrite <- app_assoc; reflexivity.

(** Split a state and an environment into their fields. *)
Ltac split_state st :=
  destruct st as [vbuf ibuf basev ioff pcur pbase pend lastvao ig g sts sid tr].

Ltac split_env env :=
  destruct env as [[restart dual basevertex] [benable bsubtract]
                   [vao fstride comps] prim mask].

(** What [PrepareDrawBuffers] does, field by field. *)
Lemma PrepareDrawBuffers_run
    {B : Type} {SB : StreamBuffer B} {CT : Counters} (env : Env) (stride : Z) (st : State B) :
  trace (exec (PrepareDrawBuffers env stride) st) =
    trace st ++
    [(gl st, StreamBuffer_Unmap GL_ARRAY_BUFFER
               (u32_mul (GetNumVerts (index_generator st)) stride));
     (gl st, StreamBuffer_Unmap GL_ELEMENT_ARRAY_BUFFER
               (u32_mul (GetIndexLen (index_generator st)) sizeof_u16))] /\
  s_vertexBuffer (exec (PrepareDrawBuffers env stride) st) =
    Unmap (s_vertexBuffer st)
          (u32_mul (GetNumVerts (index_generator st)) stride) /\
  s_indexBuffer (exec (PrepareDrawBuffers env stride) st) =
    Unmap (s_indexBuffer st)
          (u32_mul (GetIndexLen (index_generator st)) sizeof_u16) /\
  gl (exec (PrepareDrawBuffers env stride) st) = gl st.
Proof.
  split_state st.
  split; [ run_trace | repeat split ].
Qed.

(** When both byte counts fit 32 bits the sizes handed to [Unmap] are the
    exact products. *)
Lemma PrepareDrawBuffers_exact_sizes
    {B : Type} {SB : StreamBuffer B} {CT : Counters} (env : Env) (stride : Z) (st : State B) :
  0 <= GetNumVerts (index_generator st) * stride < u32_modulus ->
  0 <= GetIndexLen (index_generator st) * 2 < u32_modulus ->
  map snd (issued st (exec (PrepareDrawBuffers env stride) st)) =
    [StreamBuffer_Unmap GL_ARRAY_BUFFER
       (GetNumVerts (index_generator st) * stride);
     StreamBuffer_Unmap GL_ELEMENT_ARRAY_BUFFER
       (GetIndexLen (index_generator st) * 2)].
Proof.
  intros Hv Hi.
  destruct (PrepareDrawBuffers_run env stride st) as (Htrace & _).
  rewrite (issued_app _ _ _ Htrace).
  unfold sizeof_u16. rewrite !u32_mul_exact by assumption.
  reflexivity.
Qed.

(** ** Properties of [Draw], [PrepareDrawBuffers] and [ResetBuffer] *)

Section DrawAndBuffers.

Context {B : Type} {SB : StreamBuffer B} {CT : Counters}.

(** C5 (amended).  [Draw] issues exactly one indexed draw call.  Its
    topology is [GL_POINTS] for point primitives, [GL_LINES] for line
    primitives, and for triangle primitives [GL_TRIANGLE_STRIP] when
    primitive restart is supported and [GL_TRIANGLES] otherwise.  It
    covers vertices [0 .. GetNumVerts] and reads 16-bit indices from the
    index offset of the batch; their count is [GetIndexLen] converted to
    [GLsizei]. *)
Theorem Draw_issues_one_indexed_draw (env : Env) (stride : Z) (st : State B) :
  exists c,
    issued st (exec (Draw env stride) st) = [(gl st, c)] /\
    is_draw c = true /\
    draw_range c =
      Some (match current_primitive_type env with
            | PRIMITIVE_POINTS => GL_POINTS
            | PRIMITIVE_LINES => GL_LINES
            | PRIMITIVE_TRIANGLES =>
                if bSupportsPrimitiveRestart (g_ActiveConfig env)
                then GL_TRIANGLE_STRIP else GL_TRIANGLES
            end,
            0, GetNumVerts (index_generator st),
            to_GLsizei (GetIndexLen (index_generator st)), GL_UNSIGNED_SHORT,
            s_index_offset st).
Proof.
  split_state st. split_env env.
  destruct basevertex; eexists.
  all: split; [ apply issued_app; run_trace | ].
  all: split; reflexivity.
Qed.

(** C10.  [Draw] does not read its stride argument: for the same state
    and environment, two strides give the same result, call for call. *)
Theorem Draw_ignores_stride (env : Env) (s1 s2 : Z) (st : State B) :
  Draw env s1 st = Draw env s2 st.
Proof. reflexivity. Qed.

(** C4 (amended).  On the same batch the two draw paths issue calls with
    the same topology, range, count and index offset.  With base-vertex
    support index [i] resolves to vertex [i + (GLint)s_baseVertex],
    without it to vertex [i]; the two mappings agree exactly when the
    base vertex of the batch is zero. *)
Theorem Draw_base_vertex_paths (env : Env) (stride : Z) (st : State B) :
  exists c1 c2,
    issued st (exec (Draw (with_base_vertex_support true env) stride) st)
      = [(gl st, c1)] /\
    issued st (exec (Draw (with_base_vertex_support false env) stride) st)
      = [(gl st, c2)] /\
    draw_range c1 = draw_range c2 /\
    (forall i, resolve_vertex c1 i = Some (i + to_GLint (s_baseVertex st))) /\
    (forall i, resolve_vertex c2 i = Some i) /\
    ((forall i, resolve_vertex c1 i = resolve_vertex c2 i)
     <-> to_GLint (s_baseVertex st) = 0).
Proof.
  split_state st. split_env env.
  do 2 eexists.
  split; [ apply issued_app; run_trace | ].
  split; [ apply issued_app; run_trace | ].
  cbn [resolve_vertex draw_range s_baseVertex].
  repeat split; try reflexivity.
  - intros H. specialize (H 0). injection H as H. lia.
  - intros H i. rewrite H. f_equal. lia.
Qed.

(** C3 (amended).  [PrepareDrawBuffers] unmaps the vertex buffer with
    [GetNumVerts * stride] and the index buffer with [GetIndexLen * 2],
    both products taken in 32-bit unsigned arithmetic.  The sizes are a
    function of the two counters and the stride alone: the reserved
    capacity of the mappings plays no part. *)
Theorem PrepareDrawBuffers_unmaps_used_bytes
    (env : Env) (stride : Z) (st : State B) :
  map snd (issued st (exec (PrepareDrawBuffers env stride) st)) =
    [StreamBuffer_Unmap GL_ARRAY_BUFFER
       ((GetNumVerts (index_generator st) * stride) mod 2 ^ 32);
     StreamBuffer_Unmap GL_ELEMENT_ARRAY_BUFFER
       ((GetIndexLen (index_generator st) * 2) mod 2 ^ 32)] /\
  s_vertexBuffer (exec (PrepareDrawBuffers env stride) st) =
    Unmap (s_vertexBuffer st)
          ((GetNumVerts (index_generator st) * stride) mod 2 ^ 32) /\
  s_indexBuffer (exec (PrepareDrawBuffers env stride) st) =
    Unmap (s_indexBuffer st)
          ((GetIndexLen (index_generator st) * 2) mod 2 ^ 32).
Proof.
  destruct (PrepareDrawBuffers_run env stride st) as (Htrace & Hv & Hi & _).
  rewrite (issued_app _ _ _ Htrace), Hv, Hi.
  repeat split.
Qed.

Variables MAXVBUFFERSIZE MAXIBUFFERSIZE : Z.

(** C6.  With a positive stride, and when the stream buffers serve the
    two requests, [ResetBuffer] maps the vertex buffer for
    [MAXVBUFFERSIZE] bytes aligned to the stride and the index buffer
    for [MAXIBUFFERSIZE] 16-bit indices, records the base vertex as the
    byte offset of the vertex mapping divided by the stride and the
    index offset as the byte offset of the index mapping, and starts
    the index generator on the pointer of the index mapping. *)
Theorem ResetBuffer_records_mappings
    (stride : Z) (st : State B)
    (vptr voff : Z) (vbuf : B) (iptr ioff : Z) (ibuf : B) :
  0 < stride ->
  Map (s_vertexBuffer st) MAXVBUFFERSIZE stride = Ok (vptr, voff, vbuf) ->
  Map (s_indexBuffer st) (MAXIBUFFERSIZE * 2) 0 = Ok (iptr, ioff, ibuf) ->
  exists st',
    ResetBuffer MAXVBUFFERSIZE MAXIBUFFERSIZE stride st = Ok st' /\
    map snd (issued st st') =
      [StreamBuffer_Map GL_ARRAY_BUFFER MAXVBUFFERSIZE stride;
       StreamBuffer_Map GL_ELEMENT_ARRAY_BUFFER (MAXIBUFFERSIZE * 2) 0;
       IndexGenerator_Start iptr] /\
    s_vertexBuffer st' = vbuf /\
    s_indexBuffer st' = ibuf /\
    s_baseVertex st' = voff / stride /\
    s_index_offset st' = ioff /\
    s_pBaseBufferPointer st' = vptr /\
    s_pCurBufferPointer st' = vptr /\
    s_pEndBufferPointer st' = vptr + MAXVBUFFERSIZE /\
    ig_destination (index_generator st') = iptr /\
    GetIndexLen (index_generator st') = 0 /\
    GetNumVerts (index_generator st') = 0.
Proof.
  intros Hstride Hv Hi.
  unfold ResetBuffer. rewrite Hv.
  replace (stride =? 0) with false by (symmetry; apply Z.eqb_neq; lia).
  change (MAXIBUFFERSIZE * sizeof_u16) with (MAXIBUFFERSIZE * 2).
  rewrite Hi.
  eexists. split; [ reflexivity | ].
  split; [ erewrite issued_app by reflexivity; reflexivity | ].
  repeat split.
Qed.

(** In the model a stride of zero yields no state. *)
Lemma ResetBuffer_zero_stride (st : State B) (vptr voff : Z) (vbuf : B) :
  Map (s_vertexBuffer st) MAXVBUFFERSIZE 0 = Ok (vptr, voff, vbuf) ->
  ResetBuffer MAXVBUFFERSIZE MAXIBUFFERSIZE 0 st = Fatal DivideByZero.
Proof. intros Hv. unfold ResetBuffer. rewrite Hv. reflexivity. Qed.

End DrawAndBuffers.

(** ** Properties of [vFlush] *)

Section Flush.

Context {B : Type} {SB : StreamBuffer B} {CT : Counters}.

(** Case analysis shared by the theorems on [vFlush]: whether the
    vertex array has to be rebound, and the flags the run reads. *)
Ltac flush_cases st env :=
  destruct (m_last_vao st =? VAO (g_nativeVertexFmt env)) eqn:Hvao;
  split_state st; split_env env;
  cbn [m_last_vao VAO g_nativeVertexFmt] in Hvao.

Ltac flush_trace Hvao :=
  run_cmds; rewrite ?Hvao, ?Z.eqb_refl; run_cmds;
  repeat rewrite <- app_assoc; reflexivity.

(** C1 (amended).  Without dual-source blending, a flush that asks for
    destination alpha draws exactly twice, with the same draw call.  The
    first draw runs with the colour mask and the blend switch exactly as
    they were on entry, and the normal shader; the second runs with the
    colour channels masked off (alpha alone is written), blending off
    and the alpha-pass shader.  So the flush forces mask and blending
    off for the second draw alone, and the first draw is masked or
    unblended only when the flush was entered that way.  Blending is
    switched back on after the second draw exactly when the blend mode
    has blend-enable or subtract set. *)
Theorem vFlush_two_pass_destination_alpha (env : Env) (st : State B) :
  bSupportsDualSourceBlend (g_ActiveConfig env) = false ->
  exists c g1 g2,
    draws (issued st (exec (vFlush env true) st)) = [(g1, c); (g2, c)] /\
    gl_color_mask g1 = gl_color_mask (gl st) /\
    gl_blend g1 = gl_blend (gl st) /\
    bound_variant g1 = Some DSTALPHA_NONE /\
    gl_color_mask g2 = (false, false, false, true) /\
    gl_blend g2 = false /\
    bound_variant g2 = Some DSTALPHA_ALPHA_PASS /\
    count_calls is_glEnable_blend
      (since_last_draw (issued st (exec (vFlush env true) st))) =
      (if blendenable (bpmem_blendmode env) || subtract (bpmem_blendmode env)
       then 1%nat else 0%nat) /\
    gl_blend (gl (exec (vFlush env true) st)) =
      (blendenable (bpmem_blendmode env) || subtract (bpmem_blendmode env)).
Proof.
  intros Hdual. flush_cases st env.
  all: cbn in Hdual; subst dual.
  all: destruct benable, bsubtract, basevertex.
  all: do 3 eexists.
  all: erewrite issued_app by flush_trace Hvao.
  all: split; [ reflexivity | ].
  all: repeat split; try reflexivity.
  all: run_cmds; rewrite ?Hvao, ?Z.eqb_refl; reflexivity.
Qed.

(** C2 (amended).  With dual-source blending a flush draws exactly once,
    and the shader bound for that draw is the combined
    regular-and-destination-alpha variant when destination alpha is
    asked for and the plain variant when it is not. *)
Theorem vFlush_dual_source_single_draw
    (env : Env) (useDstAlpha : bool) (st : State B) :
  bSupportsDualSourceBlend (g_ActiveConfig env) = true ->
  exists c g1,
    draws (issued st (exec (vFlush env useDstAlpha) st)) = [(g1, c)] /\
    bound_variant g1 =
      Some (if useDstAlpha then DSTALPHA_DUAL_SOURCE_BLEND
            else DSTALPHA_NONE).
Proof.
  intros Hdual. flush_cases st env.
  all: cbn in Hdual; subst dual.
  all: destruct useDstAlpha, basevertex.
  all: do 2 eexists.
  all: erewrite issued_app by flush_trace Hvao.
  all: split; reflexivity.
Qed.

(** C8.  Every flush uploads the global shader constants exactly once,
    whether it draws once or twice. *)
Theorem vFlush_uploads_constants_once
    (env : Env) (useDstAlpha : bool) (st : State B) :
  count_calls is_UploadConstants
    (issued st (exec (vFlush env useDstAlpha) st)) = 1%nat.
Proof.
  flush_cases st env.
  all: destruct useDstAlpha, dual, benable, bsubtract, basevertex.
  all: erewrite issued_app by flush_trace Hvao.
  all: reflexivity.
Qed.

(** C9.  On the two-pass path the renderer's colour mask is installed
    right after the second draw, whatever the blend mode: the flush
    ends with the renderer's mask in force, and no call after that one
    changes the mask or draws. *)
Theorem vFlush_two_pass_restores_color_mask (env : Env) (st : State B) :
  bSupportsDualSourceBlend (g_ActiveConfig env) = false ->
  gl_color_mask (gl (exec (vFlush env true) st)) = renderer_color_mask env /\
  exists c g2 rest,
    since_last_draw (issued st (exec (vFlush env true) st)) =
      (g2, c) :: (g2, Renderer_SetColorMask) :: rest /\
    gl_color_mask g2 = (false, false, false, true) /\
    count_calls is_glColorMask rest = 0%nat /\
    count_calls is_draw rest = 0%nat.
Proof.
  intros Hdual. flush_cases st env.
  all: cbn in Hdual; subst dual.
  all: destruct benable, bsubtract, basevertex.
  all: split;
    [ run_cmds; rewrite ?Hvao, ?Z.eqb_refl; reflexivity | ].
  all: do 3 eexists.
  all: erewrite issued_app by flush_trace Hvao.
  all: split; [ reflexivity | ].
  all: repeat split; reflexivity.
Qed.

End Flush.

(** ** The ring stream buffer under [PrepareDrawBuffers] *)

(** C7.  When the index generator reports no vertex and no index,
    [PrepareDrawBuffers] unmaps both Ring Stream Buffers with zero bytes
    and the write cursor of neither moves. *)
Theorem PrepareDrawBuffers_empty_batch
    {CT : Counters} (env : Env) (stride : Z) (st : State RingStreamBuffer) :
  GetNumVerts (index_generator st) = 0 ->
  GetIndexLen (index_generator st) = 0 ->
  map snd (issued st (exec (PrepareDrawBuffers env stride) st)) =
    [StreamBuffer_Unmap GL_ARRAY_BUFFER 0;
     StreamBuffer_Unmap GL_ELEMENT_ARRAY_BUFFER 0] /\
  rb_cursor (s_vertexBuffer (exec (PrepareDrawBuffers env stride) st)) =
    rb_cursor (s_vertexBuffer st) /\
  rb_cursor (s_indexBuffer (exec (PrepareDrawBuffers env stride) st)) =
    rb_cursor (s_indexBuffer st).
Proof.
  intros Hverts Hindices.
  destruct (PrepareDrawBuffers_run env stride st) as (Htrace & Hvbuf & Hibuf & _).
  rewrite (issued_app _ _ _ Htrace), Hvbuf, Hibuf, Hverts, Hindices.
  rewrite !u32_mul_0_l.
  cbn [Unmap RingStreamBuffer_StreamBuffer rb_Unmap rb_cursor].
  rewrite !Z.add_0_r. repeat split.
Qed.

(** ** Runs on the sample inputs *)

(** Stride 32, one triangle, no primitive restart: three indices, three
    vertices, one draw call with [GL_TRIANGLES]. *)
Example Draw_one_triangle :
  GetIndexLen (index_generator sample_triangle) = 3 /\
  GetNumVerts (index_generator sample_triangle) = 3 /\
  map snd (issued sample_triangle (exec (Draw env_two_pass 32) sample_triangle)) =
    [glDrawRangeElementsBaseVertex GL_TRIANGLES 0 3 3 GL_UNSIGNED_SHORT 0 0].
Proof. repeat split. Qed.

(** A flush of one triangle commits 96 bytes of vertices and 6 bytes of
    indices, and the next batch starts at vertex 3 and index offset 6. *)
Example second_batch_offsets :
  map snd (issued sample_triangle
             (exec (PrepareDrawBuffers env_two_pass 32) sample_triangle)) =
    [StreamBuffer_Unmap GL_ARRAY_BUFFER 96;
     StreamBuffer_Unmap GL_ELEMENT_ARRAY_BUFFER 6] /\
  s_baseVertex sample_second_batch = 3 /\
  s_index_offset sample_second_batch = 6.
Proof. repeat split. Qed.

(** A request larger than the whole buffer is refused before any pointer
    is returned. *)
Example rb_Map_out_of_space :
  rb_Map (rb_Create GL_ELEMENT_ARRAY_BUFFER MAX_IBUFFER_SIZE)
         (MAX_IBUFFER_SIZE + 1) 0 = Fatal OutOfSpace.
Proof. reflexivity. Qed.

(** On ring buffers [ResetBuffer] succeeds whenever the stride is not
    zero and both requests fit the capacities. *)
Lemma ResetBuffer_ring_total
    (MAXVBUFFERSIZE MAXIBUFFERSIZE stride : Z) (st : State RingStreamBuffer) :
  stride <> 0 ->
  MAXVBUFFERSIZE <= rb_capacity (s_vertexBuffer st) ->
  MAXIBUFFERSIZE * 2 <= rb_capacity (s_indexBuffer st) ->
  exists st', ResetBuffer MAXVBUFFERSIZE MAXIBUFFERSIZE stride st = Ok st'.
Proof.
  intros Hstride Hv Hi.
  unfold ResetBuffer, Map, RingStreamBuffer_StreamBuffer, rb_Map, sizeof_u16.
  destruct (Z.ltb_spec (rb_capacity (s_vertexBuffer st)) MAXVBUFFERSIZE);
    [ lia | ].
  destruct (Z.eqb_spec stride 0); [ contradiction | ].
  destruct (Z.ltb_spec (rb_capacity (s_indexBuffer st)) (MAXIBUFFERSIZE * 2));
    [ lia | ].
  eexists. reflexivity.
Qed.

(** *** Witnesses *)

Lemma vFlush_two_pass_destination_alpha_witness :
  bSupportsDualSourceBlend (g_ActiveConfig env_two_pass) = false /\
  exists c g1 g2,
    draws (issued sample_triangle (exec (vFlush env_two_pass true) sample_triangle))
      = [(g1, c); (g2, c)] /\
    gl_color_mask g2 = (false, false, false, true) /\
    gl_blend g2 = false.
Proof.
  split; [ reflexivity | ].
  destruct (vFlush_two_pass_destination_alpha env_two_pass sample_triangle eq_refl)
    as (c & g1 & g2 & Hdraws & _ & _ & _ & Hmask & Hblend & _).
  exists c, g1, g2. repeat split; assumption.
Defined.

Lemma vFlush_dual_source_single_draw_witness :
  bSupportsDualSourceBlend (g_ActiveConfig env_dual_source) = true /\
  exists c g1,
    draws (issued sample_triangle (exec (vFlush env_dual_source true) sample_triangle))
      = [(g1, c)] /\
    bound_variant g1 = Some DSTALPHA_DUAL_SOURCE_BLEND.
Proof.
  split; [ reflexivity | ].
  exact (vFlush_dual_source_single_draw env_dual_source true sample_triangle
           eq_refl).
Defined.

Lemma vFlush_two_pass_restores_color_mask_witness :
  bSupportsDualSourceBlend (g_ActiveConfig env_two_pass) = false /\
  gl_color_mask (gl (exec (vFlush env_two_pass true) sample_triangle)) =
    (true, true, true, true).
Proof.
  split; [ reflexivity | ].
  exact (proj1 (vFlush_two_pass_restores_color_mask env_two_pass
                  sample_triangle eq_refl)).
Defined.

Lemma ResetBuffer_records_mappings_witness :
  0 < 32 /\
  exists st',
    ResetBuffer sample_MAXVBUFFERSIZE sample_MAXIBUFFERSIZE 32 sample_created
      = Ok st' /\
    s_baseVertex st' = 0 / 32 /\
    s_index_offset st' = 0.
Proof.
  split; [ lia | ].
  destruct (ResetBuffer_records_mappings (SB := RingStreamBuffer_StreamBuffer)
              sample_MAXVBUFFERSIZE sample_MAXIBUFFERSIZE 32 sample_created
              0x10000000 0
              (mkRing GL_ARRAY_BUFFER MAX_VBUFFER_SIZE 0
                      (Some (0, sample_MAXVBUFFERSIZE)) 0x10000000)
              0x20000000 0
              (mkRing GL_ELEMENT_ARRAY_BUFFER MAX_IBUFFER_SIZE 0
                      (Some (0, sample_MAXIBUFFERSIZE * 2)) 0x20000000)
              ltac:(lia) eq_refl eq_refl)
    as (st' & Hrun & _ & _ & _ & Hbase & Hoff & _).
  exists st'. repeat split; assumption.
Defined.

Lemma PrepareDrawBuffers_empty_batch_witness :
  GetNumVerts (index_generator sample_reset) = 0 /\
  GetIndexLen (index_generator sample_reset) = 0 /\
  rb_cursor (s_vertexBuffer
               (exec (PrepareDrawBuffers env_two_pass 32) sample_reset)) =
    rb_cursor (s_vertexBuffer sample_reset) /\
  rb_cursor (s_indexBuffer
               (exec (PrepareDrawBuffers env_two_pass 32) sample_reset)) =
    rb_cursor (s_indexBuffer sample_reset).
Proof.
  split; [ reflexivity | split; [ reflexivity | ] ].
  exact (proj2 (PrepareDrawBuffers_empty_batch env_two_pass 32 sample_reset
                  eq_refl eq_refl)).
Defined.

(** *** Where the code departs from the specification's wording *)

(** C2, as worded: "the non-alpha pass or the combined pass, for
    useDestinationAlpha true and false respectively".  The code binds the
    combined variant for [true] and the plain one for [false]. *)
Lemma vFlush_dual_source_variant_not_as_worded :
  map (fun e => bound_variant (fst e))
      (draws (issued sample_triangle
                (exec (vFlush env_dual_source true) sample_triangle)))
    = [Some DSTALPHA_DUAL_SOURCE_BLEND] /\
  map (fun e => bound_variant (fst e))
      (draws (issued sample_triangle
                (exec (vFlush env_dual_source true) sample_triangle)))
    <> [Some DSTALPHA_NONE] /\
  map (fun e => bound_variant (fst e))
      (draws (issued sample_triangle
                (exec (vFlush env_dual_source false) sample_triangle)))
    = [Some DSTALPHA_NONE] /\
  map (fun e => bound_variant (fst e))
      (draws (issued sample_triangle
                (exec (vFlush env_dual_source false) sample_triangle)))
    <> [Some DSTALPHA_DUAL_SOURCE_BLEND].
Proof.
  vm_compute.
  repeat match goal with |- _ /\ _ => split end;
    first [ reflexivity | intros H; discriminate H ].
Qed.

(** C3, as worded: with two vertices emitted and a stride of 2^31 the
    vertex data is 2^32 bytes, and the vertex buffer is unmapped with 0. *)
Lemma PrepareDrawBuffers_wraps_at_32_bits :
  GetNumVerts (index_generator (with_emitted 2 0 sample_reset)) * 2147483648
    = 4294967296 /\
  map snd (issued (with_emitted 2 0 sample_reset)
             (exec (PrepareDrawBuffers env_two_pass 2147483648)
                   (with_emitted 2 0 sample_reset)))
    = [StreamBuffer_Unmap GL_ARRAY_BUFFER 0;
       StreamBuffer_Unmap GL_ELEMENT_ARRAY_BUFFER 0] /\
  map snd (issued (with_emitted 2 0 sample_reset)
             (exec (PrepareDrawBuffers env_two_pass 2147483648)
                   (with_emitted 2 0 sample_reset)))
    <> [StreamBuffer_Unmap GL_ARRAY_BUFFER
          (GetNumVerts (index_generator (with_emitted 2 0 sample_reset))
           * 2147483648);
        StreamBuffer_Unmap GL_ELEMENT_ARRAY_BUFFER
          (GetIndexLen (index_generator (with_emitted 2 0 sample_reset)) * 2)].
Proof.
  vm_compute.
  repeat match goal with |- _ /\ _ => split end;
    first [ reflexivity | intros H; discriminate H ].
Qed.

(** C4, as worded: on the second batch of a session the base vertex is 3;
    with base-vertex support index 0 resolves to vertex 3, without it to
    vertex 0, for the same index data, base vertex and index offset. *)
Lemma Draw_paths_differ_on_second_batch :
  with_base_vertex_support false env_two_pass = env_no_base_vertex /\
  map snd (issued sample_second_batch
             (exec (Draw env_two_pass 32) sample_second_batch))
    = [glDrawRangeElementsBaseVertex GL_TRIANGLES 0 3 3 GL_UNSIGNED_SHORT 6 3] /\
  map snd (issued sample_second_batch
             (exec (Draw env_no_base_vertex 32) sample_second_batch))
    = [glDrawRangeElements GL_TRIANGLES 0 3 3 GL_UNSIGNED_SHORT 6] /\
  resolve_vertex
    (glDrawRangeElementsBaseVertex GL_TRIANGLES 0 3 3 GL_UNSIGNED_SHORT 6 3) 0
    = Some 3 /\
  resolve_vertex
    (glDrawRangeElements GL_TRIANGLES 0 3 3 GL_UNSIGNED_SHORT 6) 0
    = Some 0 /\
  resolve_vertex
    (glDrawRangeElementsBaseVertex GL_TRIANGLES 0 3 3 GL_UNSIGNED_SHORT 6 3) 0
    <> resolve_vertex
         (glDrawRangeElements GL_TRIANGLES 0 3 3 GL_UNSIGNED_SHORT 6) 0.
Proof.
  vm_compute.
  repeat match goal with |- _ /\ _ => split end;
    first [ reflexivity | intros H; discriminate H ].
Qed.

(** ** Further properties of [vFlush] *)

(** Unfold the variations of an environment, then run. *)
Ltac run_varied :=
  lazy beta iota zeta delta
    [with_dual_source_blend with_primitive_restart with_blendmode
     g_ActiveConfig bpmem_blendmode g_nativeVertexFmt current_primitive_type
     renderer_color_mask bSupportsPrimitiveRestart bSupportsDualSourceBlend
     bSupportsGLBaseVertex];
  run_cmds.

(** Case analysis on a flush: is the vertex array of the format the one
    bound last, and the fields of the state and of the environment. *)
Ltac flush_split st env Hvao :=
  destruct (m_last_vao st =? VAO (g_nativeVertexFmt env)) eqn:Hvao;
  split_state st; split_env env;
  cbn [m_last_vao VAO g_nativeVertexFmt] in Hvao.

Ltac flush_run Hvao :=
  run_cmds; rewrite ?Hvao, ?Z.eqb_refl; run_cmds.

Ltac flush_issued Hvao :=
  erewrite issued_app
    by (flush_run Hvao; repeat rewrite <- app_assoc; reflexivity).

(** After a flush the vertex array of the format is the one remembered. *)
Lemma vFlush_last_vao
    {B : Type} {SB : StreamBuffer B} {CT : Counters} (env : Env) (b : bool) (st : State B) :
  m_last_vao (exec (vFlush env b) st) = VAO (g_nativeVertexFmt env).
Proof.
  flush_split st env Hvao.
  all: destruct b, dual, benable, bsubtract, basevertex.
  all: flush_run Hvao; try reflexivity.
  all: apply Z.eqb_eq; exact Hvao.
Qed.

(** The vertex array is bound by a flush only when it is not the one
    remembered, and then once, with the array of the format. *)
Lemma vFlush_bind_calls
    {B : Type} {SB : StreamBuffer B} {CT : Counters} (env : Env) (b : bool) (st : State B) :
  calls_where is_glBindVertexArray (issued st (exec (vFlush env b) st)) =
    if m_last_vao st =? VAO (g_nativeVertexFmt env) then []
    else [glBindVertexArray (VAO (g_nativeVertexFmt env))].
Proof.
  flush_split st env Hvao.
  all: destruct b, dual, benable, bsubtract, basevertex.
  all: flush_issued Hvao.
  all: reflexivity.
Qed.

Section FlushMore.

Context {B : Type} {SB : StreamBuffer B} {CT : Counters}.

(** X1.  A flush binds the vertex array of the active format exactly when
    it differs from the one bound by the previous flush: once, as its
    very first call (otherwise the first call unmaps the vertex buffer),
    and it remembers the array. *)
Theorem vFlush_rebinds_vertex_array_on_change
    (env : Env) (useDstAlpha : bool) (st : State B) :
  calls_where is_glBindVertexArray
    (issued st (exec (vFlush env useDstAlpha) st)) =
    (if m_last_vao st =? VAO (g_nativeVertexFmt env) then []
     else [glBindVertexArray (VAO (g_nativeVertexFmt env))]) /\
  hd_error (map snd (issued st (exec (vFlush env useDstAlpha) st))) =
    Some (if m_last_vao st =? VAO (g_nativeVertexFmt env)
          then StreamBuffer_Unmap GL_ARRAY_BUFFER
                 (u32_mul (GetNumVerts (index_generator st))
                          (GetVertexStride (g_nativeVertexFmt env)))
          else glBindVertexArray (VAO (g_nativeVertexFmt env))) /\
  m_last_vao (exec (vFlush env useDstAlpha) st) = VAO (g_nativeVertexFmt env).
Proof.
  split; [ apply vFlush_bind_calls | ].
  split; [ | apply vFlush_last_vao ].
  flush_split st env Hvao.
  all: destruct useDstAlpha, dual, benable, bsubtract, basevertex.
  all: flush_issued Hvao.
  all: reflexivity.
Qed.

(** X2.  Two flushes in a row with the same format: the second one never
    binds the vertex array, whatever the two destination-alpha flags. *)
Theorem vFlush_twice_binds_once (env : Env) (b1 b2 : bool) (st : State B) :
  calls_where is_glBindVertexArray
    (issued (exec (vFlush env b1) st)
            (exec (vFlush env b2) (exec (vFlush env b1) st))) = [].
Proof.
  rewrite vFlush_bind_calls, vFlush_last_vao, Z.eqb_refl. reflexivity.
Qed.

(** X3.  When the remembered vertex array is the one bound in the
    pipeline, every draw of a flush runs with the vertex array of the
    active format bound, and the two still agree afterwards. *)
Theorem vFlush_draws_with_format_bound
    (env : Env) (useDstAlpha : bool) (st : State B) :
  m_last_vao st = gl_vertex_array (gl st) ->
  Forall (fun e => gl_vertex_array (fst e) = VAO (g_nativeVertexFmt env))
         (draws (issued st (exec (vFlush env useDstAlpha) st))) /\
  m_last_vao (exec (vFlush env useDstAlpha) st) =
    gl_vertex_array (gl (exec (vFlush env useDstAlpha) st)).
Proof.
  intros Hcoherent. flush_split st env Hvao.
  all: destruct g as [blend cmask program varray].
  all: cbn [m_last_vao gl gl_vertex_array] in Hcoherent.
  all: destruct useDstAlpha, dual, benable, bsubtract, basevertex.
  all: flush_issued Hvao.
  all: split;
    [ cbn; repeat constructor; cbn;
      first [ reflexivity | apply Z.eqb_eq in Hvao; congruence ]
    | flush_run Hvao; cbn;
      first [ reflexivity | apply Z.eqb_eq in Hvao; congruence ] ].
Qed.

End FlushMore.

Section FlushPasses.

Context {B : Type} {SB : StreamBuffer B} {CT : Counters}.

(** X4.  A flush draws twice when destination alpha is asked for without
    dual-source blending and once on every other path, always with the
    same draw call; both buffers are unmapped once, with the 32-bit byte
    counts, whatever the number of passes. *)
Theorem vFlush_pass_count (env : Env) (useDstAlpha : bool) (st : State B) :
  exists c,
    is_draw c = true /\
    map snd (draws (issued st (exec (vFlush env useDstAlpha) st))) =
      (if useDstAlpha && negb (bSupportsDualSourceBlend (g_ActiveConfig env))
       then [c; c] else [c]) /\
    calls_where is_Unmap (issued st (exec (vFlush env useDstAlpha) st)) =
      [StreamBuffer_Unmap GL_ARRAY_BUFFER
         (u32_mul (GetNumVerts (index_generator st))
                  (GetVertexStride (g_nativeVertexFmt env)));
       StreamBuffer_Unmap GL_ELEMENT_ARRAY_BUFFER
         (u32_mul (GetIndexLen (index_generator st)) 2)].
Proof.
  flush_split st env Hvao.
  all: destruct useDstAlpha, dual, benable, bsubtract, basevertex.
  all: eexists.
  all: flush_issued Hvao.
  all: repeat split; reflexivity.
Qed.

(** X5.  A single-pass flush leaves the colour mask and the blend switch
    alone: it issues no call that writes either, and both are after the
    flush what they were before it. *)
Theorem vFlush_single_pass_keeps_mask_and_blend
    (env : Env) (useDstAlpha : bool) (st : State B) :
  useDstAlpha && negb (bSupportsDualSourceBlend (g_ActiveConfig env)) = false ->
  calls_where changes_mask_or_blend
    (issued st (exec (vFlush env useDstAlpha) st)) = [] /\
  gl_color_mask (gl (exec (vFlush env useDstAlpha) st)) =
    gl_color_mask (gl st) /\
  gl_blend (gl (exec (vFlush env useDstAlpha) st)) = gl_blend (gl st).
Proof.
  intros Hsingle. flush_split st env Hvao.
  all: cbn in Hsingle.
  all: destruct useDstAlpha, dual; try discriminate Hsingle.
  all: destruct benable, bsubtract, basevertex.
  all: flush_issued Hvao.
  all: split; [ reflexivity | ].
  all: split; flush_run Hvao; reflexivity.
Qed.

(** X6.  Without destination alpha the dual-source capability makes no
    difference: the flush is the same, call for call and field for
    field, on a platform with it and on one without. *)
Theorem vFlush_no_dst_alpha_ignores_dual_source (env : Env) (st : State B) :
  vFlush (with_dual_source_blend true env) false st =
  vFlush (with_dual_source_blend false env) false st.
Proof.
  destruct (m_last_vao st =? VAO (g_nativeVertexFmt env)) eqn:Hvao.
  all: split_state st; split_env env.
  all: cbn [m_last_vao VAO g_nativeVertexFmt] in Hvao.
  all: destruct basevertex.
  all: run_varied; rewrite ?Hvao; run_cmds; reflexivity.
Qed.

(** X7.  The blend mode is read on the two-pass path only: a single-pass
    flush is the same under any two blend modes. *)
Theorem vFlush_single_pass_ignores_blend_mode
    (env : Env) (m1 m2 : BlendMode) (useDstAlpha : bool) (st : State B) :
  useDstAlpha && negb (bSupportsDualSourceBlend (g_ActiveConfig env)) = false ->
  vFlush (with_blendmode m1 env) useDstAlpha st =
  vFlush (with_blendmode m2 env) useDstAlpha st.
Proof.
  intros Hsingle.
  destruct (m_last_vao st =? VAO (g_nativeVertexFmt env)) eqn:Hvao.
  all: split_state st; split_env env.
  all: cbn [m_last_vao VAO g_nativeVertexFmt] in Hvao.
  all: cbn in Hsingle.
  all: destruct useDstAlpha, dual; try discriminate Hsingle.
  all: destruct basevertex.
  all: run_varied; rewrite ?Hvao; run_cmds; reflexivity.
Qed.

(** X8.  The shader variant left bound by a flush: the alpha-pass variant
    after a two-pass flush (the colour mask is restored, the shader is
    not), the combined variant after a destination-alpha flush with
    dual-source blending, the plain variant otherwise; always with the
    component mask of the active format. *)
Theorem vFlush_leaves_variant_bound
    (env : Env) (useDstAlpha : bool) (st : State B) :
  gl_program (gl (exec (vFlush env useDstAlpha) st)) =
    Some (if useDstAlpha
          then if bSupportsDualSourceBlend (g_ActiveConfig env)
               then DSTALPHA_DUAL_SOURCE_BLEND else DSTALPHA_ALPHA_PASS
          else DSTALPHA_NONE,
          m_components (g_nativeVertexFmt env)).
Proof.
  flush_split st env Hvao.
  all: destruct useDstAlpha, dual, benable, bsubtract, basevertex.
  all: flush_run Hvao; reflexivity.
Qed.

(** X9.  A flush closes the batch without opening the next one: its
    last call clears the EFB cache, no buffer is mapped and the index
    generator is not restarted; the base vertex, the index offset, the
    write pointers and the counters of the index generator are left as
    they were. *)
Theorem vFlush_closes_batch (env : Env) (useDstAlpha : bool) (st : State B) :
  last (map snd (issued st (exec (vFlush env useDstAlpha) st)))
       SetupVertexPointers = ClearEFBCache /\
  calls_where is_Map_or_Start
    (issued st (exec (vFlush env useDstAlpha) st)) = [] /\
  s_baseVertex (exec (vFlush env useDstAlpha) st) = s_baseVertex st /\
  s_index_offset (exec (vFlush env useDstAlpha) st) = s_index_offset st /\
  s_pCurBufferPointer (exec (vFlush env useDstAlpha) st) =
    s_pCurBufferPointer st /\
  s_pBaseBufferPointer (exec (vFlush env useDstAlpha) st) =
    s_pBaseBufferPointer st /\
  s_pEndBufferPointer (exec (vFlush env useDstAlpha) st) =
    s_pEndBufferPointer st /\
  index_generator (exec (vFlush env useDstAlpha) st) = index_generator st.
Proof.
  flush_split st env Hvao.
  all: destruct useDstAlpha, dual, benable, bsubtract, basevertex.
  all: flush_issued Hvao.
  all: split; [ reflexivity | ].
  all: split; [ reflexivity | ].
  all: repeat split; flush_run Hvao; reflexivity.
Qed.

(** X10.  Everything a draw depends on is set up before the first draw
    of a flush: both buffers are unmapped, the constants uploaded and the
    vertex pointers set up before it and never from it on, and every
    draw runs with a shader variant bound. *)
Theorem vFlush_sets_up_before_drawing
    (env : Env) (useDstAlpha : bool) (st : State B) :
  calls_where
    (fun c => is_Unmap c || is_UploadConstants c || is_SetupVertexPointers c)
    (from_first_draw (issued st (exec (vFlush env useDstAlpha) st))) = [] /\
  count_calls is_Unmap (issued st (exec (vFlush env useDstAlpha) st)) = 2%nat /\
  count_calls is_SetupVertexPointers
    (issued st (exec (vFlush env useDstAlpha) st)) = 1%nat /\
  Forall (fun e => bound_variant (fst e) <> None)
         (draws (issued st (exec (vFlush env useDstAlpha) st))).
Proof.
  flush_split st env Hvao.
  all: destruct useDstAlpha, dual, benable, bsubtract, basevertex.
  all: flush_issued Hvao.
  all: repeat split; try reflexivity.
  all: cbn; repeat constructor; discriminate.
Qed.

End FlushPasses.

(** ** Further properties of [Draw], [PrepareDrawBuffers] and [ResetBuffer] *)

(** What a successful [ResetBuffer] leaves alone. *)
Lemma ResetBuffer_frame
    {B : Type} {SB : StreamBuffer B}
    (MAXVBUFFERSIZE MAXIBUFFERSIZE stride : Z) (st st' : State B) :
  ResetBuffer MAXVBUFFERSIZE MAXIBUFFERSIZE stride st = Ok st' ->
  m_last_vao st' = m_last_vao st /\ gl st' = gl st /\
  stats st' = stats st /\ iSaveTargetId st' = iSaveTargetId st.
Proof.
  unfold ResetBuffer.
  destruct (Map (s_vertexBuffer st) MAXVBUFFERSIZE stride)
    as [[[first second] vbuf] | e]; [ | discriminate ].
  destruct (stride =? 0); [ discriminate | ].
  destruct (Map (s_indexBuffer st) (MAXIBUFFERSIZE * sizeof_u16) 0)
    as [[[ifirst isecond] ibuf] | e]; [ | discriminate ].
  intros H. injection H as <-. repeat split.
Qed.

Section BatchMore.

Context {B : Type} {SB : StreamBuffer B} {CT : Counters}.

(** X11.  Primitive restart matters for triangles only: for points and
    lines [Draw] is the same with and without the capability. *)
Theorem Draw_restart_only_for_triangles (env : Env) (stride : Z) (st : State B) :
  current_primitive_type env <> PRIMITIVE_TRIANGLES ->
  Draw (with_primitive_restart true env) stride st =
  Draw (with_primitive_restart false env) stride st.
Proof.
  intros Hprim. split_state st. split_env env.
  cbn [current_primitive_type] in Hprim.
  destruct prim; [ | | contradiction ].
  all: destruct basevertex; run_varied; reflexivity.
Qed.

(** X12.  The byte counts handed to [Unmap] always fit 32 bits, and the
    one of the index buffer is a whole number of 16-bit indices. *)
Theorem PrepareDrawBuffers_sizes_in_range
    (env : Env) (stride : Z) (st : State B) :
  exists vsize isize,
    map snd (issued st (exec (PrepareDrawBuffers env stride) st)) =
      [StreamBuffer_Unmap GL_ARRAY_BUFFER vsize;
       StreamBuffer_Unmap GL_ELEMENT_ARRAY_BUFFER isize] /\
    0 <= vsize < 2 ^ 32 /\
    0 <= isize < 2 ^ 32 /\
    isize mod 2 = 0.
Proof.
  destruct (PrepareDrawBuffers_run env stride st) as (Htrace & _).
  rewrite (issued_app _ _ _ Htrace).
  do 2 eexists. split; [ reflexivity | ].
  unfold u32_mul, u32, u32_modulus, sizeof_u16.
  split; [ apply Z.mod_pos_bound; lia | ].
  split; [ apply Z.mod_pos_bound; lia | ].
  rewrite Z.mod_mod_divide by (exists (2 ^ 31); reflexivity).
  apply Z_mod_mult.
Qed.

Variables MAXVBUFFERSIZE MAXIBUFFERSIZE : Z.

(** X13.  A batch from [ResetBuffer] to [Draw] on a platform with
    base-vertex draws: whatever the producer emits in between, the draw
    call reads its indices from the byte offset of the index mapping and
    offsets them by the byte offset of the vertex mapping divided by the
    stride; below 2^31 bytes the cast to [GLint] loses nothing.  The
    count is the emitted number of indices converted to [GLsizei]. *)
Theorem ResetBuffer_then_Draw
    (env : Env) (stride stride' verts indices : Z) (st : State B)
    (vptr voff : Z) (vbuf : B) (iptr ioff : Z) (ibuf : B) :
  0 < stride ->
  0 <= voff < 2 ^ 31 ->
  bSupportsGLBaseVertex (g_ActiveConfig env) = true ->
  Map (s_vertexBuffer st) MAXVBUFFERSIZE stride = Ok (vptr, voff, vbuf) ->
  Map (s_indexBuffer st) (MAXIBUFFERSIZE * 2) 0 = Ok (iptr, ioff, ibuf) ->
  exists st',
    ResetBuffer MAXVBUFFERSIZE MAXIBUFFERSIZE stride st = Ok st' /\
    map snd (issued (with_emitted verts indices st')
               (exec (Draw env stride') (with_emitted verts indices st'))) =
      [glDrawRangeElementsBaseVertex
         (match current_primitive_type env with
          | PRIMITIVE_POINTS => GL_POINTS
          | PRIMITIVE_LINES => GL_LINES
          | PRIMITIVE_TRIANGLES =>
              if bSupportsPrimitiveRestart (g_ActiveConfig env)
              then GL_TRIANGLE_STRIP else GL_TRIANGLES
          end)
         0 verts (to_GLsizei indices) GL_UNSIGNED_SHORT ioff (voff / stride)].
Proof.
  intros Hstride Hoff Hbase Hv Hi.
  unfold ResetBuffer. rewrite Hv.
  replace (stride =? 0) with false by (symmetry; apply Z.eqb_neq; lia).
  change (MAXIBUFFERSIZE * sizeof_u16) with (MAXIBUFFERSIZE * 2).
  rewrite Hi.
  eexists. split; [ reflexivity | ].
  assert (Hcast : to_GLint (voff / stride) = voff / stride).
  { apply to_GLint_exact. split.
    - transitivity 0; [ lia | apply Z.div_pos; lia ].
    - apply Z.div_lt_upper_bound; nia. }
  split_env env. cbn in Hbase. subst basevertex.
  erewrite issued_app by (unfold with_emitted; run_trace).
  cbn [map snd]. rewrite Hcast. reflexivity.
Qed.

(** X14.  The first flush after [CreateDeviceObjects]: the remembered
    vertex array starts at 0 and [ResetBuffer] does not touch it, so the
    vertex array of the format is bound unless its name is 0. *)
Theorem first_vFlush_binds_nonzero_vertex_array
    (env : Env) (g : GLState) (stride verts indices : Z)
    (useDstAlpha : bool) (st' : State B) :
  ResetBuffer MAXVBUFFERSIZE MAXIBUFFERSIZE stride (CreateDeviceObjects g)
    = Ok st' ->
  calls_where is_glBindVertexArray
    (issued (with_emitted verts indices st')
            (exec (vFlush env useDstAlpha) (with_emitted verts indices st'))) =
    if VAO (g_nativeVertexFmt env) =? 0 then []
    else [glBindVertexArray (VAO (g_nativeVertexFmt env))].
Proof.
  intros Hreset.
  destruct (ResetBuffer_frame _ _ _ _ _ Hreset) as (Hvao & _).
  rewrite vFlush_bind_calls.
  change (m_last_vao (with_emitted verts indices st')) with (m_last_vao st').
  rewrite Hvao. cbn [CreateDeviceObjects m_last_vao].
  rewrite Z.eqb_sym. reflexivity.
Qed.

End BatchMore.

(** ** The patch engine *)

(** X15.  [GetPatchTypeCharLength] is the number of hexadecimal digits of
    a value of the patch's width: that many digits cover exactly the
    values of the width, and a [u32] value never needs more than 8. *)
Theorem GetPatchTypeCharLength_hex_digits (t : PatchEngine.PatchType) :
  16 ^ PatchEngine.GetPatchTypeCharLength t = 2 ^ PatchEngine.PatchTypeBits t /\
  2 <= PatchEngine.GetPatchTypeCharLength t <= 8.
Proof. destruct t; split; try reflexivity; cbn; lia. Qed.

(** *** Witnesses *)

Lemma vFlush_draws_with_format_bound_witness :
  m_last_vao sample_triangle = gl_vertex_array (gl sample_triangle) /\
  Forall (fun e => gl_vertex_array (fst e) = 1)
         (draws (issued sample_triangle
                   (exec (vFlush env_two_pass true) sample_triangle))).
Proof.
  split; [ reflexivity | ].
  exact (proj1 (vFlush_draws_with_format_bound env_two_pass true
                  sample_triangle eq_refl)).
Defined.

Lemma vFlush_single_pass_keeps_mask_and_blend_witness :
  false && negb (bSupportsDualSourceBlend (g_ActiveConfig env_two_pass)) = false /\
  calls_where changes_mask_or_blend
    (issued sample_triangle (exec (vFlush env_two_pass false) sample_triangle))
    = [].
Proof.
  split; [ reflexivity | ].
  exact (proj1 (vFlush_single_pass_keeps_mask_and_blend env_two_pass false
                  sample_triangle eq_refl)).
Defined.

Lemma vFlush_single_pass_ignores_blend_mode_witness :
  true && negb (bSupportsDualSourceBlend (g_ActiveConfig env_dual_source)) = false /\
  vFlush (with_blendmode (mkBlendMode true true) env_dual_source) true
         sample_triangle =
  vFlush (with_blendmode (mkBlendMode false false) env_dual_source) true
         sample_triangle.
Proof.
  split; [ reflexivity | ].
  exact (vFlush_single_pass_ignores_blend_mode env_dual_source
           (mkBlendMode true true) (mkBlendMode false false) true
           sample_triangle eq_refl).
Defined.

Lemma Draw_restart_only_for_triangles_witness :
  current_primitive_type env_points <> PRIMITIVE_TRIANGLES /\
  Draw (with_primitive_restart true env_points) 32 sample_triangle =
  Draw (with_primitive_restart false env_points) 32 sample_triangle.
Proof.
  assert (H : current_primitive_type env_points <> PRIMITIVE_TRIANGLES)
    by discriminate.
  split; [ exact H | ].
  exact (Draw_restart_only_for_triangles env_points 32 sample_triangle H).
Defined.

Lemma ResetBuffer_then_Draw_witness :
  0 < 32 /\ 0 <= 96 < 2 ^ 31 /\
  bSupportsGLBaseVertex (g_ActiveConfig env_two_pass) = true /\
  exists st',
    ResetBuffer sample_MAXVBUFFERSIZE sample_MAXIBUFFERSIZE 32
      (exec (vFlush env_two_pass false) sample_triangle) = Ok st' /\
    map snd (issued (with_emitted 3 3 st')
               (exec (Draw env_two_pass 32) (with_emitted 3 3 st'))) =
      [glDrawRangeElementsBaseVertex GL_TRIANGLES 0 3 3 GL_UNSIGNED_SHORT 6
         (96 / 32)].
Proof.
  split; [ lia | ]. split; [ lia | ]. split; [ reflexivity | ].
  apply (ResetBuffer_then_Draw (SB := RingStreamBuffer_StreamBuffer)
           sample_MAXVBUFFERSIZE sample_MAXIBUFFERSIZE env_two_pass
           32 32 3 3 (exec (vFlush env_two_pass false) sample_triangle)
           (0x10000000 + 96) 96
           (mkRing GL_ARRAY_BUFFER MAX_VBUFFER_SIZE 96
                   (Some (96, sample_MAXVBUFFERSIZE)) 0x10000000)
           (0x20000000 + 6) 6
           (mkRing GL_ELEMENT_ARRAY_BUFFER MAX_IBUFFER_SIZE 6
                   (Some (6, sample_MAXIBUFFERSIZE * 2)) 0x20000000)).
  - lia.
  - lia.
  - reflexivity.
  - vm_compute. reflexivity.
  - vm_compute. reflexivity.
Defined.

Lemma first_vFlush_binds_nonzero_vertex_array_witness :
  ResetBuffer sample_MAXVBUFFERSIZE sample_MAXIBUFFERSIZE 32
    (CreateDeviceObjects sample_gl) = Ok sample_reset /\
  calls_where is_glBindVertexArray
    (issued sample_triangle (exec (vFlush env_two_pass true) sample_triangle))
    = [glBindVertexArray 1].
Proof.
  split; [ reflexivity | ].
  exact (first_vFlush_binds_nonzero_vertex_array (SB := RingStreamBuffer_StreamBuffer)
           sample_MAXVBUFFERSIZE sample_MAXIBUFFERSIZE env_two_pass sample_gl
           32 3 3 true sample_reset eq_refl).
Defined.

(** C1, as worded: "during the second invocation only".  On a platform
    whose renderer writes alpha only and has blending off, the second
    batch is entered with the colour channels masked and blending off,
    and both draws of its flush run that way. *)
Lemma vFlush_two_pass_both_draws_masked :
  gl_color_mask (gl sample_alpha_only_second_batch) =
    (false, false, false, true) /\
  gl_blend (gl sample_alpha_only_second_batch) = false /\
  map (fun e => (gl_color_mask (fst e), gl_blend (fst e)))
      (draws (issued sample_alpha_only_second_batch
                (exec (vFlush env_alpha_only true)
                      sample_alpha_only_second_batch)))
    = [((false, false, false, true), false);
       ((false, false, false, true), false)].
Proof.
  vm_compute.
  repeat match goal with |- _ /\ _ => split end; reflexivity.
Qed.

(** C5, as worded: "over the committed range".  With 2^31 indices
    emitted the count the draw call receives is -2^31. *)
Lemma Draw_count_wraps_at_31_bits :
  GetIndexLen (index_generator sample_huge_index_count) = 2147483648 /\
  map snd (issued sample_huge_index_count
             (exec (Draw env_two_pass 32) sample_huge_index_count))
    = [glDrawRangeElementsBaseVertex GL_TRIANGLES 0 3 (-2147483648)
         GL_UNSIGNED_SHORT 0 0] /\
  map (fun e => draw_range (snd e))
      (issued sample_huge_index_count
         (exec (Draw env_two_pass 32) sample_huge_index_count))
    <> [Some (GL_TRIANGLES, 0, GetNumVerts (index_generator sample_huge_index_count),
              GetIndexLen (index_generator sample_huge_index_count),
              GL_UNSIGNED_SHORT, 0)].
Proof.
  vm_compute.
  repeat match goal with |- _ /\ _ => split end;
    first [ reflexivity | intros H; discriminate H ].
Qed.
